(** * mo: the Maybe monad of [maybe.go]

    A shallow embedding of package [mo] (file [maybe.go]) and the
    properties of its constructors, accessors, combinators and JSON
    methods.

    The package is generic in the element type [T] and inspects the
    runtime kind of its argument through package [reflect].  The
    embedding therefore carries a small universe of Go types and of Go
    values; a type parameter of the source becomes an explicit
    [gotype] argument.  A Go panic is an explicit outcome, [Panic]. *)

From Stdlib Require Import ZArith List Bool.
From Stdlib Require Import Strings.Byte Strings.String.
Import ListNotations.

Set Warnings "-register-all".

(** ** Go types and values *)

(** The types an element type [T] ranges over.  [TAny] is the empty
    interface [any]; the other types are concrete.  [TFunc] stands for
    one function type, whose signature plays no role here. *)
Inductive gotype : Type :=
| TBool
| TInt
| TString
| TPtr (elem : gotype)
| TSlice (elem : gotype)
| TMap (key elem : gotype)
| TFunc
| TAny.

Definition gotype_eq_dec (a b : gotype) : {a = b} + {a <> b}.
Proof. decide equality. Defined.

(** A pointer is [nil] or points to a value.  It is represented by the
    value it points to: [maybe.go] only ever reads through a pointer, and
    the address itself is not modelled.  A slice is [nil] or its elements,
    a map is [nil] or its entries, a function is [nil] or a code
    identifier.  A value of static type [any] is [VIface d] where [d] is
    [None] for the nil interface and otherwise the dynamic value, which
    is of a concrete type. *)
Inductive govalue : Type :=
| VBool (b : bool)
| VInt (n : Z)
| VString (s : list byte)
| VPtr (elem : gotype) (p : option govalue)
| VSlice (elem : gotype) (s : option (list govalue))
| VMap (key elem : gotype) (m : option (list (govalue * govalue)))
| VFunc (code : option positive)
| VIface (dyn : option govalue).

(** The dynamic type of a value. *)
Definition typeof (v : govalue) : gotype :=
  match v with
  | VBool _ => TBool
  | VInt _ => TInt
  | VString _ => TString
  | VPtr e _ => TPtr e
  | VSlice e _ => TSlice e
  | VMap k e _ => TMap k e
  | VFunc _ => TFunc
  | VIface _ => TAny
  end.

(** The zero value of a type, what [var x T] holds. *)
Definition zero (T : gotype) : govalue :=
  match T with
  | TBool => VBool false
  | TInt => VInt 0
  | TString => VString []
  | TPtr e => VPtr e None
  | TSlice e => VSlice e None
  | TMap k e => VMap k e None
  | TFunc => VFunc None
  | TAny => VIface None
  end.

Definition is_iface (v : govalue) : bool :=
  match v with VIface _ => true | _ => false end.

(** [has_type v T]: [v] is a well-formed value of static type [T].  An
    [int] is 64 bits wide; the dynamic value of an interface is never
    itself an interface. *)
Fixpoint has_type (v : govalue) (T : gotype) {struct v} : bool :=
  match v, T with
  | VBool _, TBool => true
  | VInt n, TInt => ((- 2 ^ 63 <=? n) && (n <? 2 ^ 63))%Z
  | VString _, TString => true
  | VPtr e p, TPtr e' =>
      (if gotype_eq_dec e e' then true else false)
      && match p with None => true | Some x => has_type x e end
  | VSlice e s, TSlice e' =>
      (if gotype_eq_dec e e' then true else false)
      && match s with
         | None => true
         | Some l => forallb (fun x => has_type x e) l
         end
  | VMap k e m, TMap k' e' =>
      (if gotype_eq_dec k k' then true else false)
      && (if gotype_eq_dec e e' then true else false)
      && match m with
         | None => true
         | Some l =>
             forallb (fun kv => match kv with
                                | (a, b) => has_type a k && has_type b e
                                end) l
         end
  | VFunc _, TFunc => true
  | VIface d, TAny =>
      match d with
      | None => true
      | Some x => negb (is_iface x) && has_type x (typeof x)
      end
  | _, _ => false
  end.

(** ** Panics *)

(** The run-time panics the package can raise: a failed type assertion
    [x.(T)] ("interface conversion: interface {} is int, not *int";
    [have] is [None] when the interface is nil), and a [reflect] method
    called on a [Value] of the wrong kind. *)
Inductive panic : Type :=
| InterfaceConversion (have : option gotype) (want : gotype)
| ReflectValueError (method : string).

Inductive result (A : Type) : Type :=
| Ok (a : A)
| Panic (p : panic).

Arguments Ok {A} a.
Arguments Panic {A} p.

Definition bind {A B : Type} (r : result A) (k : A -> result B) : result B :=
  match r with
  | Ok a => k a
  | Panic p => Panic p
  end.

Notation "x <- r ;; k" := (bind r (fun x => k))
  (at level 61, r at next level, right associativity).

(** ** Package [reflect], as far as [maybe.go] uses it *)

Module reflect.

Inductive Kind : Type :=
| Invalid | Bool | Int | String | Ptr | Slice | Map | Func | Interface.

Definition Kind_eqb (a b : Kind) : bool :=
  match a, b with
  | Invalid, Invalid | Bool, Bool | Int, Int | String, String
  | Ptr, Ptr | Slice, Slice | Map, Map | Func, Func
  | Interface, Interface => true
  | _, _ => false
  end.

(** A [reflect.Value] is the zero [Value] ([None]) or holds a Go value.
    It holds an interface value only when obtained by [Elem] from a
    pointer to an interface. *)
Definition Value : Type := option govalue.

(** [reflect.ValueOf(i any)]: the zero [Value] for a nil interface,
    otherwise the concrete value stored in [i]. *)
Definition ValueOf (i : option govalue) : Value := i.

Definition Kind_of (rv : Value) : Kind :=
  match rv with
  | None => Invalid
  | Some (VBool _) => Bool
  | Some (VInt _) => Int
  | Some (VString _) => String
  | Some (VPtr _ _) => Ptr
  | Some (VSlice _ _) => Slice
  | Some (VMap _ _ _) => Map
  | Some (VFunc _) => Func
  | Some (VIface _) => Interface
  end.

(** [IsNil] panics unless the kind is a nilable one. *)
Definition IsNil (rv : Value) : result bool :=
  match rv with
  | Some (VPtr _ None) | Some (VSlice _ None) | Some (VMap _ _ None)
  | Some (VFunc None) | Some (VIface None) => Ok true
  | Some (VPtr _ (Some _)) | Some (VSlice _ (Some _))
  | Some (VMap _ _ (Some _)) | Some (VFunc (Some _))
  | Some (VIface (Some _)) => Ok false
  | _ => Panic (ReflectValueError "IsNil")
  end.

(** [Elem] of a pointer is the value pointed to (the zero [Value] for a
    nil pointer), [Elem] of an interface is the value it contains; it
    panics on other kinds. *)
Definition Elem (rv : Value) : result Value :=
  match rv with
  | Some (VPtr _ p) => Ok p
  | Some (VIface d) => Ok d
  | _ => Panic (ReflectValueError "Elem")
  end.

(** [Interface] returns the held value as an [any]; for a [Value] of
    kind [Interface] that is the element inside the interface.  It
    panics on the zero [Value]. *)
Definition Interface_of (rv : Value) : result (option govalue) :=
  match rv with
  | None => Panic (ReflectValueError "Interface")
  | Some (VIface d) => Ok d
  | Some v => Ok (Some v)
  end.

End reflect.

(** Passing a value of static type [T] where an [any] is expected: an
    interface value keeps its dynamic value, a concrete value is boxed. *)
Definition to_any (v : govalue) : option govalue :=
  match v with
  | VIface d => d
  | _ => Some v
  end.

(** The type assertion [i.(T)] in its single-result form.  For a concrete
    [T] the dynamic type of [i] has to be [T]; for [T = any] every
    non-nil [i] passes; a nil [i] always panics. *)
Definition type_assert (i : option govalue) (T : gotype) : result govalue :=
  match i with
  | None => Panic (InterfaceConversion None T)
  | Some x =>
      match T with
      | TAny => Ok (VIface (Some x))
      | _ => if gotype_eq_dec (typeof x) T then Ok x
             else Panic (InterfaceConversion (Some (typeof x)) T)
      end
  end.

(** The runtime kind [reflect.ValueOf(v).Kind()] of a value. *)
Definition kind (v : govalue) : reflect.Kind :=
  reflect.Kind_of (reflect.ValueOf (to_any v)).

(** ** The [Maybe] type *)

Record Maybe : Type := mkMaybe { value : govalue; valid : bool }.

Definition HasValue (m : Maybe) : bool := valid m.

Definition Value (m : Maybe) : govalue := value m.

Definition ValueOr (m : Maybe) (v : govalue) : govalue :=
  if valid m then value m else v.

(** [Maybe[T]{valid: false}]: the omitted field is the zero value. *)
Definition Nothing (T : gotype) : Maybe :=
  {| value := zero T; valid := false |}.

Definition Just (T : gotype) (v : govalue) : result Maybe :=
  if reflect.Kind_eqb (reflect.Kind_of (reflect.ValueOf (to_any v))) reflect.Ptr
  then
    let rv := reflect.ValueOf (to_any v) in
    isnil <- reflect.IsNil rv ;;
    if isnil : bool then Ok (Nothing T)
    else
      e <- reflect.Elem rv ;;
      i <- reflect.Interface_of e ;;
      x <- type_assert i T ;;
      Ok {| value := x; valid := true |}
  else Ok {| value := v; valid := true |}.

(** [ok ...bool] is a variadic parameter: a list. *)
Definition From (T : gotype) (val : govalue) (ok : list bool) : result Maybe :=
  if (0 <? List.length ok)%nat && negb (nth 0 ok false) then Ok (Nothing T)
  else
    if reflect.Kind_eqb (reflect.Kind_of (reflect.ValueOf (to_any val)))
         reflect.Ptr
    then
      let rv := reflect.ValueOf (to_any val) in
      isnil <- reflect.IsNil rv ;;
      if isnil : bool then Ok (Nothing T)
      else
        e <- reflect.Elem rv ;;
        i <- reflect.Interface_of e ;;
        x <- type_assert i T ;;
        Ok {| value := x; valid := true |}
    else Just T val.

(** [Map], [Fmap] and [Match] take Go functions; they are modelled as
    total functions.  [B] is the result element type. *)
Definition Map (B : gotype) (f : govalue -> govalue) (m : Maybe)
  : result Maybe :=
  if valid m then Just B (f (value m)) else Ok (Nothing B).

Definition Fmap (B : gotype) (f : govalue -> Maybe) (m : Maybe) : Maybe :=
  if valid m then f (value m) else Nothing B.

Definition Match {B : Type} (onNothing : unit -> B) (onJust : govalue -> B)
  (m : Maybe) : B :=
  if valid m then onJust (value m) else onNothing tt.

(** ** Package [encoding/json], as far as [maybe.go] uses it *)

(** [maybe.go] calls the JSON library at one shape only, with a local
    [var t *T]: [json.Marshal(t)], and [json.Unmarshal(data, &t)] with
    [t] still nil.  The pointer [t] is an [option]: [None] is nil,
    [Some x] points to [x].  The library is not part of the package; it
    is an interface here, and each theorem states what it needs of it.

    - [json_Marshal T t] is the result of [json.Marshal(t)];
    - [json_Unmarshal T data] is the pointer [t] after
      [json.Unmarshal(data, &t)], with the error returned ([None] is a
      nil error). *)
Class JSON : Type := {
  json_error : Type;
  json_Marshal : gotype -> option govalue -> list byte * option json_error;
  json_Unmarshal : gotype -> list byte -> option govalue * option json_error
}.

(** The JSON literal [null]. *)
Definition null_literal : list byte := [x6e; x75; x6c; x6c].

Section Methods.

Context {J : JSON}.

(** [func (m *Maybe[T]) UnmarshalJSON(data []byte) error]: the receiver
    is updated in place; the result is the receiver after the call and
    the error returned. *)
Definition UnmarshalJSON (T : gotype) (m : Maybe) (data : list byte)
  : result (Maybe * option json_error) :=
  match json_Unmarshal T data with
  | (_, Some err) => Ok (m, Some err)
  | (t, None) =>
      match t with
      | Some x => m' <- Just T x ;; Ok (m', None)
      | None => Ok (m, None)
      end
  end.

Definition MarshalJSON (T : gotype) (m : Maybe)
  : list byte * option json_error :=
  let t := if valid m then Some (value m) else None in
  json_Marshal T t.

End Methods.

(** ** An instance of the JSON interface

    A fragment of [encoding/json] on compact scalar literals: [null],
    [true], [false], integers, and strings of plain characters, for the
    types [bool], [int], [string] and pointers to them.  It makes the
    assumptions of the theorems below concrete. *)
Module MiniJSON.

Inductive error : Type :=
| BadLiteral        (* the input is not a literal of this fragment *)
| TypeMismatch      (* the literal does not fit the Go type *)
| Unsupported.      (* the Go type or value is outside this fragment *)

Inductive literal : Type :=
| LNull | LTrue | LFalse | LNumber (n : Z) | LString (s : list byte).

Definition is_digit (b : byte) : bool :=
  (48 <=? Byte.to_N b)%N && (Byte.to_N b <=? 57)%N.

Definition digit (b : byte) : Z := Z.of_N (Byte.to_N b) - 48.

Fixpoint digits (acc : Z) (bs : list byte) : option Z :=
  match bs with
  | [] => Some acc
  | b :: r => if is_digit b then digits (10 * acc + digit b) r else None
  end.

(** [0] or a digit string that does not start with [0]. *)
Definition natural (bs : list byte) : option Z :=
  match bs with
  | [] => None
  | [x30] => Some 0%Z
  | x30 :: _ => None
  | _ => digits 0 bs
  end.

(** Printable ASCII other than the quote and the backslash. *)
Definition plain (b : byte) : bool :=
  (32 <=? Byte.to_N b)%N && (Byte.to_N b <? 127)%N
  && negb (Byte.eqb b x22) && negb (Byte.eqb b x5c).

Fixpoint string_body (bs : list byte) : option (list byte) :=
  match bs with
  | [] => None
  | [x22] => Some []
  | b :: r => if plain b then option_map (cons b) (string_body r) else None
  end.

Definition scan (data : list byte) : option literal :=
  match data with
  | [x6e; x75; x6c; x6c] => Some LNull
  | [x74; x72; x75; x65] => Some LTrue
  | [x66; x61; x6c; x73; x65] => Some LFalse
  | x22 :: r => option_map LString (string_body r)
  | x2d :: r => option_map (fun n => LNumber (- n)) (natural r)
  | _ => option_map LNumber (natural data)
  end.

Definition in_int_range (n : Z) : bool :=
  ((- 2 ^ 63 <=? n) && (n <? 2 ^ 63))%Z.

(** Storing a literal into a variable of type [T] that holds [cur]. *)
Fixpoint store (T : gotype) (l : literal) (cur : govalue)
  : govalue * option error :=
  match T with
  | TPtr e =>
      match l with
      | LNull => (VPtr e None, None)
      | _ =>
          let pointee := match cur with
                         | VPtr _ (Some y) => y
                         | _ => zero e
                         end in
          let (x, err) := store e l pointee in
          (VPtr e (Some x), err)
      end
  | TBool =>
      match l with
      | LTrue => (VBool true, None)
      | LFalse => (VBool false, None)
      | LNull => (cur, None)
      | _ => (cur, Some TypeMismatch)
      end
  | TInt =>
      match l with
      | LNumber n =>
          if in_int_range n then (VInt n, None)
          else (cur, Some TypeMismatch)
      | LNull => (cur, None)
      | _ => (cur, Some TypeMismatch)
      end
  | TString =>
      match l with
      | LString s => (VString s, None)
      | LNull => (cur, None)
      | _ => (cur, Some TypeMismatch)
      end
  | _ => (cur, Some Unsupported)
  end.

(** [json.Unmarshal(data, &t)] for a nil [t] of type [*T]: invalid input
    is rejected before anything is stored; [null] leaves [t] nil; any
    other literal is stored into a newly allocated [T]. *)
Definition Unmarshal (T : gotype) (data : list byte)
  : option govalue * option error :=
  match scan data with
  | None => (None, Some BadLiteral)
  | Some LNull => (None, None)
  | Some l => let (x, err) := store T l (zero T) in (Some x, err)
  end.

Fixpoint bytes_of_uint (d : Decimal.uint) : list byte :=
  match d with
  | Decimal.Nil => []
  | Decimal.D0 r => x30 :: bytes_of_uint r
  | Decimal.D1 r => x31 :: bytes_of_uint r
  | Decimal.D2 r => x32 :: bytes_of_uint r
  | Decimal.D3 r => x33 :: bytes_of_uint r
  | Decimal.D4 r => x34 :: bytes_of_uint r
  | Decimal.D5 r => x35 :: bytes_of_uint r
  | Decimal.D6 r => x36 :: bytes_of_uint r
  | Decimal.D7 r => x37 :: bytes_of_uint r
  | Decimal.D8 r => x38 :: bytes_of_uint r
  | Decimal.D9 r => x39 :: bytes_of_uint r
  end.

Definition bytes_of_Z (n : Z) : list byte :=
  match Z.to_int n with
  | Decimal.Pos d => bytes_of_uint d
  | Decimal.Neg d => x2d :: bytes_of_uint d
  end.

(** A pointer encodes as the value pointed to, nil as [null]. *)
Fixpoint encode (v : govalue) : option (list byte) :=
  match v with
  | VBool true => Some [x74; x72; x75; x65]
  | VBool false => Some [x66; x61; x6c; x73; x65]
  | VInt n => Some (bytes_of_Z n)
  | VString s =>
      if forallb plain s then Some (x22 :: s ++ [x22]) else None
  | VPtr _ None | VIface None => Some null_literal
  | VPtr _ (Some x) | VIface (Some x) => encode x
  | _ => None
  end.

Definition Marshal (T : gotype) (t : option govalue)
  : list byte * option error :=
  match t with
  | None => (null_literal, None)
  | Some v =>
      match encode v with
      | Some bs => (bs, None)
      | None => ([], Some Unsupported)
      end
  end.

#[export] Instance json : JSON :=
  {| json_error := error;
     json_Marshal := Marshal;
     json_Unmarshal := Unmarshal |}.

End MiniJSON.


(** Sample values used in the examples: the pointer [&x] with [x == 5],
    as a [*int] and boxed in an [any]; a pointer to an [any] that holds
    [&x]. *)
Definition ptr5 : govalue := VPtr TInt (Some (VInt 5)).

Definition any_ptr5 : govalue := VIface (Some ptr5).

Definition ptr_any_ptr5 : govalue := VPtr TAny (Some any_ptr5).

(** [len(ok) > 0 && !ok[0]], the guard of [From]. *)
Definition explicit_false (ok : list bool) : bool :=
  (0 <? List.length ok)%nat && negb (nth 0 ok false).

(** The JSON string literal ["abc"], quotes included. *)
Definition abc_literal : list byte := [x22; x61; x62; x63; x22].

(** [Map(g)(Map(f)(m))]: the second [Map] runs when the first returns. *)
Definition Map_then (B C : gotype) (f g : govalue -> govalue) (m : Maybe)
  : result Maybe :=
  m1 <- Map B f m ;; Map C g m1.


(** [v] is a nil pointer, as a [*U] or as the dynamic value of an
    interface. *)
Definition nil_pointer (v : govalue) : Prop :=
  exists U, to_any v = Some (VPtr U None).

(** * Properties *)

(** ** The constructors *)

Lemma Kind_eqb_eq (a b : reflect.Kind) :
  reflect.Kind_eqb a b = true <-> a = b.
Proof.
  split.
  - destruct a, b; simpl; intros H; try reflexivity; discriminate H.
  - intros ->. destruct b; reflexivity.
Qed.

Lemma Kind_eqb_neq (a b : reflect.Kind) :
  a <> b -> reflect.Kind_eqb a b = false.
Proof.
  intros H. destruct (reflect.Kind_eqb a b) eqn:E; [|reflexivity].
  apply Kind_eqb_eq in E. contradiction.
Qed.

(** A value whose runtime kind is not pointer is wrapped as it is. *)
Lemma Just_not_Ptr (T : gotype) (v : govalue) :
  kind v <> reflect.Ptr -> Just T v = Ok {| value := v; valid := true |}.
Proof.
  intros H. unfold Just. fold (kind v).
  rewrite (Kind_eqb_neq _ _ H). reflexivity.
Qed.

(** A nil pointer, as a [*T] or boxed in an interface, gives [Nothing]. *)
Lemma Just_nil_Ptr (T e : gotype) (v : govalue) :
  to_any v = Some (VPtr e None) -> Just T v = Ok (Nothing T).
Proof.
  intros H. unfold Just. rewrite H. reflexivity.
Qed.

(** [From] repeats the body of [Just] after its guard. *)
Lemma From_unfold (T : gotype) (val : govalue) (ok : list bool) :
  From T val ok = if explicit_false ok then Ok (Nothing T) else Just T val.
Proof.
  unfold From. fold (explicit_false ok).
  destruct (explicit_false ok); [reflexivity|].
  unfold Just at 2.
  destruct (reflect.Kind_eqb _ _) eqn:E; [reflexivity|].
  unfold Just. rewrite E. reflexivity.
Qed.

Lemma explicit_false_nil : explicit_false [] = false.
Proof. reflexivity. Qed.

Lemma explicit_false_cons (b : bool) (rest : list bool) :
  explicit_false (b :: rest) = negb b.
Proof. reflexivity. Qed.

Create Rewrite HintDb maybe.

#[local] Hint Rewrite From_unfold explicit_false_nil explicit_false_cons
  : maybe.

Lemma gotype_neq_TPtr (e : gotype) : e <> TPtr e.
Proof.
  induction e; intros E; try discriminate E.
  injection E as E. contradiction.
Qed.

(** A non-nil pointer passed at a pointer type [*U], with [U] concrete:
    the type assertion of line 70 compares [U] with [*U] and panics. *)
Lemma Just_pointer_type_panics (e : gotype) (x : govalue) :
  e <> TAny -> typeof x = e ->
  Just (TPtr e) (VPtr e (Some x))
  = Panic (InterfaceConversion (Some e) (TPtr e)).
Proof.
  intros Hany Hty.
  assert (Hi : reflect.Interface_of (Some x) = Ok (Some x)).
  { destruct x; try reflexivity. simpl in Hty. congruence. }
  unfold Just.
  cbn [to_any reflect.ValueOf reflect.Kind_of reflect.Kind_eqb
       reflect.IsNil reflect.Elem bind].
  rewrite Hi. cbn [bind type_assert]. rewrite Hty.
  destruct (gotype_eq_dec e (TPtr e)) as [E|E].
  - exfalso. exact (gotype_neq_TPtr e E).
  - reflexivity.
Qed.

(** C2: construction is claimed never to fail.  [Just], [From] and [Map]
    panic when they are given, or [f] returns, a non-nil pointer at a
    pointer element type: [Just[*int](&x)] with [x == 5] stops with
    "interface conversion: interface {} is int, not *int". *)
Theorem Just_non_nil_pointer_panics :
  has_type ptr5 (TPtr TInt) = true
  /\ Just (TPtr TInt) ptr5
     = Panic (InterfaceConversion (Some TInt) (TPtr TInt))
  /\ From (TPtr TInt) ptr5 []
     = Panic (InterfaceConversion (Some TInt) (TPtr TInt))
  /\ From (TPtr TInt) ptr5 [true]
     = Panic (InterfaceConversion (Some TInt) (TPtr TInt))
  /\ Map (TPtr TInt) (fun _ => ptr5) {| value := VInt 1; valid := true |}
     = Panic (InterfaceConversion (Some TInt) (TPtr TInt)).
Proof. repeat split. Qed.

(** C3 as stated fails on non-nil pointers: [Just[any](&x)] holds the
    [int] that [&x] points to, not the pointer that was passed in. *)
Lemma Just_boxed_pointer_not_same :
  has_type any_ptr5 TAny = true
  /\ Just TAny any_ptr5 = Ok {| value := VIface (Some (VInt 5)); valid := true |}
  /\ ~ (exists m, Just TAny any_ptr5 = Ok m
                  /\ HasValue m = true /\ Value m = any_ptr5).
Proof.
  split; [reflexivity|]. split; [reflexivity|].
  intros [m [H [_ Hv]]]. cbv in H. injection H as <-. discriminate Hv.
Qed.

(** C3, amended: for every value [v] whose runtime kind is not pointer,
    [Just(v)] is a container with [HasValue() == true] and
    [Value() == v]. *)
Theorem Just_non_pointer (T : gotype) (v : govalue) :
  kind v <> reflect.Ptr ->
  exists m, Just T v = Ok m /\ HasValue m = true /\ Value m = v.
Proof.
  intros H. exists {| value := v; valid := true |}.
  rewrite (Just_not_Ptr T v H). repeat split.
Qed.

Lemma Just_non_pointer_witness :
  kind (VInt 5) <> reflect.Ptr
  /\ exists m, Just TInt (VInt 5) = Ok m
               /\ HasValue m = true /\ Value m = VInt 5.
Proof.
  split.
  - simpl. discriminate.
  - apply (Just_non_pointer TInt (VInt 5)). simpl. discriminate.
Defined.

(** C4: for every pointer type [T = *U], the nil pointer of that type
    gives a container equal to [Nothing[T]()], through [Just] and through
    [From] with the flag left out or true; that container has
    [HasValue() == false] and stores the zero value, nil. *)
Theorem nil_pointer_collapses (U : gotype) (rest : list bool) :
  Just (TPtr U) (VPtr U None) = Ok (Nothing (TPtr U))
  /\ From (TPtr U) (VPtr U None) [] = Ok (Nothing (TPtr U))
  /\ From (TPtr U) (VPtr U None) (true :: rest) = Ok (Nothing (TPtr U))
  /\ HasValue (Nothing (TPtr U)) = false
  /\ Value (Nothing (TPtr U)) = VPtr U None.
Proof.
  assert (HJ : Just (TPtr U) (VPtr U None) = Ok (Nothing (TPtr U)))
    by (apply Just_nil_Ptr with (e := U); reflexivity).
  autorewrite with maybe. simpl. rewrite HJ. repeat split.
Qed.

(** C5: [From(v, false)] is [Nothing[T]()] whatever [v] is.  The flag is
    looked at first: the result is [Nothing] also for a [v] on which the
    pointer inspection that follows would stop with a panic. *)
Theorem From_false_is_Nothing (T : gotype) (v : govalue) (rest : list bool) :
  From T v (false :: rest) = Ok (Nothing T)
  /\ HasValue (Nothing T) = false
  /\ From (TPtr TInt) (VPtr TInt None) (false :: rest)
     = Ok (Nothing (TPtr TInt))
  /\ From (TPtr TInt) ptr5 (false :: rest) = Ok (Nothing (TPtr TInt)).
Proof. repeat split. Qed.

(** C10: only the pointer kind collapses.  The nil interface, a nil
    slice, a nil map and a nil function are wrapped as present values by
    [Just] and by [From] (flag left out or true). *)
Theorem nil_of_other_kinds_is_present
  (T e k : gotype) (rest : list bool) (v : govalue) :
  In v [VIface None; VSlice e None; VMap k e None; VFunc None] ->
  Just T v = Ok {| value := v; valid := true |}
  /\ From T v [] = Ok {| value := v; valid := true |}
  /\ From T v (true :: rest) = Ok {| value := v; valid := true |}
  /\ HasValue {| value := v; valid := true |} = true.
Proof.
  intros H.
  assert (Hk : kind v <> reflect.Ptr).
  { simpl in H. destruct H as [<-|[<-|[<-|[<-|[]]]]]; discriminate. }
  autorewrite with maybe. simpl.
  rewrite (Just_not_Ptr T v Hk). repeat split.
Qed.

Lemma nil_of_other_kinds_is_present_witness :
  In (VSlice TInt None)
     [VIface None; VSlice TInt None; VMap TString TInt None; VFunc None]
  /\ Just (TSlice TInt) (VSlice TInt None)
     = Ok {| value := VSlice TInt None; valid := true |}
  /\ From (TSlice TInt) (VSlice TInt None) []
     = Ok {| value := VSlice TInt None; valid := true |}
  /\ From (TSlice TInt) (VSlice TInt None) [true]
     = Ok {| value := VSlice TInt None; valid := true |}
  /\ HasValue {| value := VSlice TInt None; valid := true |} = true.
Proof.
  split.
  - simpl. right. left. reflexivity.
  - apply (nil_of_other_kinds_is_present
             (TSlice TInt) TInt TString [] (VSlice TInt None)).
    simpl. right. left. reflexivity.
Defined.

(** ** Decoding and encoding *)

Section Decoding.

Context {J : JSON}.

(** When the library leaves the pointer [t] nil and reports no error,
    [UnmarshalJSON] does not touch the receiver. *)
Lemma UnmarshalJSON_nil (T : gotype) (m : Maybe) (data : list byte) :
  json_Unmarshal T data = (None, None) ->
  UnmarshalJSON T m data = Ok (m, None).
Proof. intros H. unfold UnmarshalJSON. rewrite H. reflexivity. Qed.

(** When the library reports no error and [t] points to [x], the receiver
    becomes [Just(x)]. *)
Lemma UnmarshalJSON_value (T : gotype) (m : Maybe) (data : list byte)
  (x : govalue) :
  json_Unmarshal T data = (Some x, None) ->
  UnmarshalJSON T m data = (m' <- Just T x ;; Ok (m', None)).
Proof. intros H. unfold UnmarshalJSON. rewrite H. reflexivity. Qed.

(** C9: decoding [null] returns a nil error and leaves the receiver as it
    was, value and flag; a present container stays present.  The library
    fact used: [null] decoded into a pointer sets the pointer to nil. *)
Theorem UnmarshalJSON_null_frame (T : gotype) (m : Maybe) :
  json_Unmarshal T null_literal = (None, None) ->
  UnmarshalJSON T m null_literal = Ok (m, None)
  /\ (HasValue m = true ->
      exists m', UnmarshalJSON T m null_literal = Ok (m', None)
                 /\ HasValue m' = true /\ Value m' = Value m).
Proof.
  intros H. pose proof (UnmarshalJSON_nil T m null_literal H) as E.
  split; [exact E|].
  intros Hp. exists m. rewrite E. repeat split. exact Hp.
Qed.


(** C7: when the library reports an error for [data], [UnmarshalJSON]
    returns that very error and the receiver is as it was before the
    call, whatever the library has stored in [t] meanwhile. *)
Theorem UnmarshalJSON_error_frame (T : gotype) (m : Maybe)
  (data : list byte) (t : option govalue) (err : json_error) :
  json_Unmarshal T data = (t, Some err) ->
  UnmarshalJSON T m data = Ok (m, Some err).
Proof. intros H. unfold UnmarshalJSON. rewrite H. reflexivity. Qed.

(** X15: [Nothing] encodes as what the library gives for a nil pointer,
    and decodes back to [Nothing] when decoded into a fresh container. *)
Lemma roundtrip_Nothing (T : gotype) (data : list byte) :
  json_Marshal T None = (data, None) ->
  json_Unmarshal T data = (None, None) ->
  MarshalJSON T (Nothing T) = (data, None)
  /\ UnmarshalJSON T (Nothing T) data = Ok (Nothing T, None).
Proof.
  intros He Hd. split.
  - unfold MarshalJSON. simpl. exact He.
  - apply UnmarshalJSON_nil. exact Hd.
Qed.

(** X14: a value that is not of pointer kind and that the library takes
    through [json.Marshal(&v)] and back without loss: [Just(v)] encodes
    and decodes back to [Just(v)]. *)
Lemma roundtrip_non_pointer (T : gotype) (v : govalue) (data : list byte) :
  kind v <> reflect.Ptr ->
  json_Marshal T (Some v) = (data, None) ->
  json_Unmarshal T data = (Some v, None) ->
  exists m, Just T v = Ok m
            /\ MarshalJSON T m = (data, None)
            /\ UnmarshalJSON T (Nothing T) data = Ok (m, None).
Proof.
  intros Hk He Hd. exists {| value := v; valid := true |}.
  split; [apply Just_not_Ptr; exact Hk|]. split.
  - unfold MarshalJSON. simpl. exact He.
  - rewrite (UnmarshalJSON_value T (Nothing T) data v Hd).
    rewrite (Just_not_Ptr T v Hk). reflexivity.
Qed.

(** X16: a nil pointer: [Just] gives [Nothing], which round-trips. *)
Lemma roundtrip_nil_pointer (U : gotype) (data : list byte) :
  json_Marshal (TPtr U) None = (data, None) ->
  json_Unmarshal (TPtr U) data = (None, None) ->
  exists m, Just (TPtr U) (VPtr U None) = Ok m
            /\ MarshalJSON (TPtr U) m = (data, None)
            /\ UnmarshalJSON (TPtr U) (Nothing (TPtr U)) data
               = Ok (Nothing (TPtr U), None).
Proof.
  intros He Hd. exists (Nothing (TPtr U)).
  split; [apply Just_nil_Ptr with (e := U); reflexivity|]. split.
  - unfold MarshalJSON. simpl. exact He.
  - apply UnmarshalJSON_nil. exact Hd.
Qed.

End Decoding.

Lemma UnmarshalJSON_null_frame_witness :
  json_Unmarshal (JSON := MiniJSON.json) TInt null_literal = (None, None)
  /\ UnmarshalJSON (J := MiniJSON.json) TInt
       {| value := VInt 5; valid := true |} null_literal
     = Ok ({| value := VInt 5; valid := true |}, None).
Proof.
  split.
  - reflexivity.
  - apply (UnmarshalJSON_null_frame (J := MiniJSON.json) TInt
             {| value := VInt 5; valid := true |}).
    reflexivity.
Defined.



Lemma UnmarshalJSON_error_frame_witness :
  json_Unmarshal (JSON := MiniJSON.json) TInt abc_literal
  = (Some (VInt 0), Some MiniJSON.TypeMismatch)
  /\ UnmarshalJSON (J := MiniJSON.json) TInt
       {| value := VInt 5; valid := true |} abc_literal
     = Ok ({| value := VInt 5; valid := true |}, Some MiniJSON.TypeMismatch).
Proof.
  split.
  - reflexivity.
  - apply (UnmarshalJSON_error_frame (J := MiniJSON.json) TInt
             {| value := VInt 5; valid := true |} abc_literal
             (Some (VInt 0)) MiniJSON.TypeMismatch).
    reflexivity.
Defined.

Example roundtrip_5 :
  MarshalJSON (J := MiniJSON.json) TInt {| value := VInt 5; valid := true |}
  = ([x35], None)
  /\ UnmarshalJSON (J := MiniJSON.json) TInt (Nothing TInt) [x35]
     = Ok ({| value := VInt 5; valid := true |}, None).
Proof. split; reflexivity. Qed.

(** C6: the round trip of [Just(v)] is claimed for every non-null [v]
    that the library itself takes through encoding and decoding without
    loss.  The pointer [&x] with [x == 5] is such a [v] at [T = *int]:
    it encodes as [5], and [5] decodes to a pointer to [5].  But
    [Just(&x)] panics, and so does decoding [5] into a [Maybe[*int]]. *)
Theorem roundtrip_pointer_panics :
  has_type ptr5 (TPtr TInt) = true
  /\ json_Marshal (JSON := MiniJSON.json) (TPtr TInt) (Some ptr5)
     = ([x35], None)
  /\ json_Unmarshal (JSON := MiniJSON.json) (TPtr TInt) [x35]
     = (Some ptr5, None)
  /\ Just (TPtr TInt) ptr5
     = Panic (InterfaceConversion (Some TInt) (TPtr TInt))
  /\ UnmarshalJSON (J := MiniJSON.json) (TPtr TInt) (Nothing (TPtr TInt))
       [x35]
     = Panic (InterfaceConversion (Some TInt) (TPtr TInt)).
Proof. repeat split. Qed.

(** ** [Map] *)

(** C8 as stated fails.  Identity: [Just[any](p)], where [p] points to an
    [any] that holds [&x], is a container holding [&x]; [Map(id)] on it
    dereferences once more.  Composition: with [f] returning a nil
    [*int] and [g] returning [0], [Map(f)] collapses to [Nothing] and
    [Map(g)] keeps it so, whereas [Map] of the composition is [Just(0)]. *)
Lemma Map_functor_laws_fail :
  (has_type (VIface (Some ptr_any_ptr5)) TAny = true
   /\ Just TAny (VIface (Some ptr_any_ptr5))
      = Ok {| value := any_ptr5; valid := true |}
   /\ Map TAny (fun a => a) {| value := any_ptr5; valid := true |}
      <> Ok {| value := any_ptr5; valid := true |})
  /\ (Just TInt (VInt 1) = Ok {| value := VInt 1; valid := true |}
      /\ Map TInt (fun a => (fun _ => VInt 0) ((fun _ => VPtr TInt None) a))
           {| value := VInt 1; valid := true |}
         <> Map_then (TPtr TInt) TInt (fun _ => VPtr TInt None)
              (fun _ => VInt 0) {| value := VInt 1; valid := true |}).
Proof.
  split; (split; [reflexivity|]).
  - split; [reflexivity|]. cbv. intros H. discriminate H.
  - cbv. intros H. discriminate H.
Qed.

(** C8, amended: [Map(id)(m) == m] for every container [m] that is
    [Nothing[A]()] or holds a value whose runtime kind is not pointer;
    [Map(g . f)(m) == Map(g)(Map(f)(m))], panics included, for every [m]
    that is absent or on whose value [f] returns a value whose runtime
    kind is not pointer. *)
Theorem Map_functor_laws_non_pointer
  (A B C : gotype) (f g : govalue -> govalue) (m : Maybe) :
  (m = Nothing A \/ (valid m = true /\ kind (value m) <> reflect.Ptr) ->
   Map A (fun a => a) m = Ok m)
  /\ ((valid m = true -> kind (f (value m)) <> reflect.Ptr) ->
      Map C (fun a => g (f a)) m = Map_then B C f g m).
Proof.
  split.
  - intros [->|[Hv Hk]]; [reflexivity|].
    unfold Map. rewrite Hv. rewrite (Just_not_Ptr A _ Hk).
    destruct m as [x b]. simpl in Hv. subst b. reflexivity.
  - intros Hf. unfold Map_then, Map.
    destruct (valid m) eqn:Hv; [|reflexivity].
    rewrite (Just_not_Ptr B _ (Hf eq_refl)). reflexivity.
Qed.

Lemma Map_functor_laws_non_pointer_witness :
  ({| value := VInt 1; valid := true |} = Nothing TInt
   \/ (valid {| value := VInt 1; valid := true |} = true
       /\ kind (value {| value := VInt 1; valid := true |}) <> reflect.Ptr))
  /\ (valid {| value := any_ptr5; valid := true |} = true ->
      kind (VInt 0) <> reflect.Ptr)
  /\ Map TInt (fun a => a) {| value := VInt 1; valid := true |}
     = Ok {| value := VInt 1; valid := true |}
  /\ Map TInt (fun a => (fun _ => VInt 0) ((fun _ => VInt 0) a))
       {| value := any_ptr5; valid := true |}
     = Map_then TInt TInt (fun _ => VInt 0) (fun _ => VInt 0)
         {| value := any_ptr5; valid := true |}.
Proof.
  assert (H1 : {| value := VInt 1; valid := true |} = Nothing TInt
               \/ (valid {| value := VInt 1; valid := true |} = true
                   /\ kind (value {| value := VInt 1; valid := true |})
                      <> reflect.Ptr)).
  { right. split; [reflexivity|]. simpl. discriminate. }
  assert (H2 : valid {| value := any_ptr5; valid := true |} = true ->
               kind (VInt 0) <> reflect.Ptr).
  { intros _. simpl. discriminate. }
  split; [exact H1|]. split; [exact H2|]. split.
  - exact (proj1 (Map_functor_laws_non_pointer TInt TInt TInt
                    (fun _ => VInt 0) (fun _ => VInt 0)
                    {| value := VInt 1; valid := true |}) H1).
  - exact (proj2 (Map_functor_laws_non_pointer TAny TInt TInt
                    (fun _ => VInt 0) (fun _ => VInt 0)
                    {| value := any_ptr5; valid := true |}) H2).
Defined.

(** * Further properties of the package *)

(** ** Well-typed values *)

Lemma has_type_typeof (v : govalue) (T : gotype) :
  has_type v T = true -> typeof v = T.
Proof.
  destruct v, T; simpl; intros H; try discriminate H; try reflexivity.
  - destruct (gotype_eq_dec elem T) as [->|]; [reflexivity|discriminate H].
  - destruct (gotype_eq_dec elem T) as [->|]; [reflexivity|discriminate H].
  - destruct (gotype_eq_dec key T1) as [->|]; [|discriminate H].
    destruct (gotype_eq_dec elem T2) as [->|]; [reflexivity|discriminate H].
Qed.

Lemma has_type_self (v : govalue) (T : gotype) :
  has_type v T = true -> has_type v (typeof v) = true.
Proof.
  intros H. rewrite (has_type_typeof v T H). exact H.
Qed.

Lemma has_type_zero (T : gotype) : has_type (zero T) T = true.
Proof.
  destruct T; simpl; try reflexivity.
  - destruct (gotype_eq_dec T T); [reflexivity|contradiction].
  - destruct (gotype_eq_dec T T); [reflexivity|contradiction].
  - destruct (gotype_eq_dec T1 T1); [|contradiction].
    destruct (gotype_eq_dec T2 T2); [reflexivity|contradiction].
Qed.

(** What a well-typed value boxes into: a concrete, well-typed value. *)
Lemma to_any_well_typed (v x : govalue) (T : gotype) :
  has_type v T = true -> to_any v = Some x ->
  is_iface x = false /\ has_type x (typeof x) = true.
Proof.
  intros Hty E.
  destruct v; simpl in E;
    try (injection E as <-; split;
         [reflexivity | exact (has_type_self _ T Hty)]).
  subst dyn. destruct T; simpl in Hty; try discriminate Hty.
  apply andb_true_iff in Hty. destruct Hty as [Hi Hx].
  split; [|exact Hx]. destruct (is_iface x); [discriminate Hi|reflexivity].
Qed.

Lemma Interface_of_Some (y : govalue) :
  reflect.Interface_of (Some y) = Ok (to_any y).
Proof. destruct y; reflexivity. Qed.

(** A passing type assertion on a well-typed dynamic value gives a value
    of the asserted type. *)
Lemma type_assert_well_typed (x r : govalue) (T : gotype) :
  is_iface x = false -> has_type x (typeof x) = true ->
  type_assert (Some x) T = Ok r -> has_type r T = true.
Proof.
  intros Hi Hx H. unfold type_assert in H.
  destruct T;
    try (destruct (gotype_eq_dec (typeof x) _) as [E|E];
         [injection H as <-; rewrite <- E; exact Hx | discriminate H]).
  injection H as <-. simpl. rewrite Hi, Hx. reflexivity.
Qed.

(** [Just] on a pointer that is not nil, with the steps of lines 66-71
    made explicit. *)
Lemma Just_non_nil_Ptr (T U : gotype) (v y : govalue) :
  to_any v = Some (VPtr U (Some y)) ->
  Just T v = (x <- type_assert (to_any y) T ;;
              Ok {| value := x; valid := true |}).
Proof.
  intros E. unfold Just. rewrite E.
  cbn [reflect.ValueOf reflect.Kind_of reflect.Kind_eqb reflect.IsNil
       reflect.Elem bind].
  rewrite Interface_of_Some. reflexivity.
Qed.

(** The three ways through [Just]. *)
Lemma Just_cases (T : gotype) (v : govalue) :
  (kind v <> reflect.Ptr /\ Just T v = Ok {| value := v; valid := true |})
  \/ (nil_pointer v /\ Just T v = Ok (Nothing T))
  \/ (exists U y, to_any v = Some (VPtr U (Some y))
                  /\ Just T v = (x <- type_assert (to_any y) T ;;
                                 Ok {| value := x; valid := true |})).
Proof.
  destruct (to_any v) as [w|] eqn:E.
  - destruct w as [b|n|s|U p|U s|K U mp|c|d];
      try (left; split;
           [unfold kind; rewrite E; discriminate
           | apply Just_not_Ptr; unfold kind; rewrite E; discriminate]).
    destruct p as [y|].
    + right. right. exists U, y. split; [reflexivity|].
      apply Just_non_nil_Ptr with (U := U). exact E.
    + right. left. split; [exists U; exact E|].
      apply Just_nil_Ptr with (e := U). exact E.
  - left. split.
    + unfold kind. rewrite E. discriminate.
    + apply Just_not_Ptr. unfold kind. rewrite E. discriminate.
Qed.

(** ** [Just] and [From] *)

(** X1: [From] with the flag left out, or with a first flag that is
    true, is [Just], panics included; only the first flag counts. *)
Theorem From_agrees_with_Just (T : gotype) (v : govalue) (b : bool)
  (rest : list bool) :
  From T v [] = Just T v
  /\ From T v (true :: rest) = Just T v
  /\ From T v (b :: rest) = From T v [b].
Proof.
  autorewrite with maybe. repeat split.
Qed.

(** The flag of the container [Just] returns, read off its three ways. *)
Lemma Just_valid_false (T : gotype) (v : govalue) (m : Maybe) :
  Just T v = Ok m ->
  (valid m = false <-> nil_pointer v)
  /\ (valid m = false -> m = Nothing T).
Proof.
  intros H.
  destruct (Just_cases T v) as [[Hk E]|[[Hn E]|[U [y [Ev E]]]]];
    rewrite E in H.
  - injection H as <-. split.
    + split; [discriminate|].
      intros [U HU]. exfalso. apply Hk. unfold kind. rewrite HU. reflexivity.
    + discriminate.
  - injection H as <-. split.
    + split; [intros _; exact Hn | reflexivity].
    + reflexivity.
  - destruct (type_assert (to_any y) T) as [x|p]; [|discriminate H].
    injection H as <-. split.
    + split; [discriminate|].
      intros [U' HU]. rewrite Ev in HU. discriminate HU.
    + discriminate.
Qed.

(** X2: when [Just] returns, the container is absent exactly when the
    argument is a nil pointer, and then it equals [Nothing[T]()]. *)
Theorem Just_absent_iff_nil_pointer (T : gotype) (v : govalue) (m : Maybe) :
  Just T v = Ok m ->
  (HasValue m = false <-> nil_pointer v)
  /\ (HasValue m = false -> m = Nothing T).
Proof. exact (Just_valid_false T v m). Qed.

Lemma Just_absent_iff_nil_pointer_witness :
  Just (TPtr TInt) (VPtr TInt None) = Ok (Nothing (TPtr TInt))
  /\ (HasValue (Nothing (TPtr TInt)) = false
      <-> nil_pointer (VPtr TInt None))
  /\ (HasValue (Nothing (TPtr TInt)) = false ->
      Nothing (TPtr TInt) = Nothing (TPtr TInt)).
Proof.
  split.
  - reflexivity.
  - apply (Just_absent_iff_nil_pointer (TPtr TInt) (VPtr TInt None)
             (Nothing (TPtr TInt))).
    reflexivity.
Defined.

(** X3: when [From] returns, the container is absent exactly when the
    first flag is false or the value is a nil pointer. *)
Theorem From_absent_iff (T : gotype) (v : govalue) (ok : list bool)
  (m : Maybe) :
  From T v ok = Ok m ->
  (HasValue m = false <-> explicit_false ok = true \/ nil_pointer v).
Proof.
  rewrite From_unfold. destruct (explicit_false ok) eqn:Ef.
  - intros H. injection H as <-. split; [intros _; left|]; reflexivity.
  - intros H. destruct (Just_valid_false T v m H) as [Hiff _].
    split.
    + intros Ha. right. apply Hiff. exact Ha.
    + intros [Hc|Hn]; [discriminate Hc|]. apply Hiff. exact Hn.
Qed.

Lemma From_absent_iff_witness :
  From TInt (VInt 5) [false; true] = Ok (Nothing TInt)
  /\ (HasValue (Nothing TInt) = false
      <-> explicit_false [false; true] = true \/ nil_pointer (VInt 5)).
Proof.
  split.
  - reflexivity.
  - apply (From_absent_iff TInt (VInt 5) [false; true] (Nothing TInt)).
    reflexivity.
Defined.

(** The stored value is the argument, the zero value, or what passed the
    type assertion: well typed each time. *)
Lemma Just_well_typed (T : gotype) (v : govalue) (m : Maybe) :
  has_type v T = true -> Just T v = Ok m -> has_type (value m) T = true.
Proof.
  intros Hty H.
  destruct (Just_cases T v) as [[Hk E]|[[Hn E]|[U [y [Ev E]]]]];
    rewrite E in H.
  - injection H as <-. exact Hty.
  - injection H as <-. apply has_type_zero.
  - destruct (to_any_well_typed v _ T Hty Ev) as [_ Hp].
    simpl in Hp. apply andb_true_iff in Hp. destruct Hp as [_ Hy].
    destruct (to_any y) as [x|] eqn:Ex; [|discriminate H].
    destruct (to_any_well_typed y x U Hy Ex) as [Hi Hx].
    destruct (type_assert (Some x) T) as [r|p] eqn:Ea; [|discriminate H].
    injection H as <-. simpl.
    exact (type_assert_well_typed x r T Hi Hx Ea).
Qed.

(** X4: [Just] keeps the element type: given a well-typed [v] of type
    [T], the value stored in the container it returns is of type [T]. *)
Theorem Just_preserves_type (T : gotype) (v : govalue) (m : Maybe) :
  has_type v T = true -> Just T v = Ok m -> has_type (Value m) T = true.
Proof. exact (Just_well_typed T v m). Qed.

Lemma Just_preserves_type_witness :
  has_type any_ptr5 TAny = true
  /\ Just TAny any_ptr5
     = Ok {| value := VIface (Some (VInt 5)); valid := true |}
  /\ has_type (value {| value := VIface (Some (VInt 5)); valid := true |})
       TAny = true.
Proof.
  split; [reflexivity|]. split; [reflexivity|].
  apply (Just_preserves_type TAny any_ptr5
           {| value := VIface (Some (VInt 5)); valid := true |});
    reflexivity.
Defined.



(** ** The accessors and combinators *)

(** X6: [ValueOr] after [Just]: the wrapped value for a value that is
    not of pointer kind, the fallback for a nil pointer. *)
Theorem ValueOr_after_Just (T : gotype) (v d : govalue) (m : Maybe) :
  Just T v = Ok m ->
  (kind v <> reflect.Ptr -> ValueOr m d = v)
  /\ (nil_pointer v -> ValueOr m d = d /\ Value m = zero T).
Proof.
  intros H. split.
  - intros Hk. rewrite (Just_not_Ptr T v Hk) in H.
    injection H as <-. reflexivity.
  - intros [U HU]. rewrite (Just_nil_Ptr T U v HU) in H.
    injection H as <-. split; reflexivity.
Qed.

Lemma ValueOr_after_Just_witness :
  Just TInt (VInt 5) = Ok {| value := VInt 5; valid := true |}
  /\ (kind (VInt 5) <> reflect.Ptr ->
      ValueOr {| value := VInt 5; valid := true |} (VInt 7) = VInt 5)
  /\ (nil_pointer (VInt 5) ->
      ValueOr {| value := VInt 5; valid := true |} (VInt 7) = VInt 7
      /\ Value {| value := VInt 5; valid := true |} = zero TInt).
Proof.
  split.
  - reflexivity.
  - apply (ValueOr_after_Just TInt (VInt 5) (VInt 7)
             {| value := VInt 5; valid := true |}).
    reflexivity.
Defined.

(** X7: [Match] is the eliminator the other consumers reduce to:
    [HasValue], [ValueOr], [Fmap] and [Map] are each a [Match]. *)
Theorem Match_universal (B : gotype) (m : Maybe) (d : govalue)
  (f : govalue -> govalue) (k : govalue -> Maybe) :
  HasValue m = Match (fun _ => false) (fun _ => true) m
  /\ ValueOr m d = Match (fun _ => d) (fun x => x) m
  /\ Fmap B k m = Match (fun _ => Nothing B) k m
  /\ Map B f m = Match (fun _ => Ok (Nothing B)) (fun x => Just B (f x)) m.
Proof.
  unfold HasValue, ValueOr, Fmap, Map, Match.
  destruct (valid m); repeat split.
Qed.

(** X8: [Match] after [Just] runs the present branch on the wrapped
    value when it is not of pointer kind, and the absent branch for a
    nil pointer. *)
Theorem Match_after_Just (R : Type) (T : gotype) (v : govalue) (m : Maybe)
  (onNothing : unit -> R) (onJust : govalue -> R) :
  Just T v = Ok m ->
  (kind v <> reflect.Ptr -> Match onNothing onJust m = onJust v)
  /\ (nil_pointer v -> Match onNothing onJust m = onNothing tt).
Proof.
  intros H. split.
  - intros Hk. rewrite (Just_not_Ptr T v Hk) in H.
    injection H as <-. reflexivity.
  - intros [U HU]. rewrite (Just_nil_Ptr T U v HU) in H.
    injection H as <-. reflexivity.
Qed.

Lemma Match_after_Just_witness :
  Just (TPtr TInt) (VPtr TInt None) = Ok (Nothing (TPtr TInt))
  /\ (kind (VPtr TInt None) <> reflect.Ptr ->
      Match (fun _ => 0%nat) (fun _ => 1%nat) (Nothing (TPtr TInt)) = 1%nat)
  /\ (nil_pointer (VPtr TInt None) ->
      Match (fun _ => 0%nat) (fun _ => 1%nat) (Nothing (TPtr TInt)) = 0%nat).
Proof.
  split.
  - reflexivity.
  - apply (Match_after_Just nat (TPtr TInt) (VPtr TInt None)
             (Nothing (TPtr TInt)) (fun _ => 0%nat) (fun _ => 1%nat)).
    reflexivity.
Defined.

(** X9: left identity of [Fmap]: on [Just(v)], for [v] not of pointer
    kind, [Fmap(f)] is [f(v)]; on [Just] of a nil pointer it is
    [Nothing[B]()] whatever [f] is. *)
Theorem Fmap_left_identity (A B : gotype) (f : govalue -> Maybe)
  (v : govalue) (m : Maybe) :
  Just A v = Ok m ->
  (kind v <> reflect.Ptr -> Fmap B f m = f v)
  /\ (nil_pointer v -> Fmap B f m = Nothing B).
Proof.
  intros H. split.
  - intros Hk. rewrite (Just_not_Ptr A v Hk) in H.
    injection H as <-. reflexivity.
  - intros [U HU]. rewrite (Just_nil_Ptr A U v HU) in H.
    injection H as <-. reflexivity.
Qed.

Lemma Fmap_left_identity_witness :
  Just TInt (VInt 5) = Ok {| value := VInt 5; valid := true |}
  /\ (kind (VInt 5) <> reflect.Ptr ->
      Fmap TBool (fun _ => {| value := VBool true; valid := true |})
        {| value := VInt 5; valid := true |}
      = {| value := VBool true; valid := true |})
  /\ (nil_pointer (VInt 5) ->
      Fmap TBool (fun _ => {| value := VBool true; valid := true |})
        {| value := VInt 5; valid := true |}
      = Nothing TBool).
Proof.
  split.
  - reflexivity.
  - apply (Fmap_left_identity TInt TBool
             (fun _ => {| value := VBool true; valid := true |})
             (VInt 5) {| value := VInt 5; valid := true |}).
    reflexivity.
Defined.

(** X10: right identity of [Fmap]: for a container that is
    [Nothing[A]()] or holds a value not of pointer kind, [Fmap] of a
    function that returns what [Just] returns on that value gives the
    container back. *)
Theorem Fmap_right_identity (A : gotype) (f : govalue -> Maybe) (m : Maybe) :
  m = Nothing A \/ (valid m = true /\ kind (value m) <> reflect.Ptr) ->
  (valid m = true -> Just A (value m) = Ok (f (value m))) ->
  Fmap A f m = m.
Proof.
  intros [->|[Hv Hk]] Hf; [reflexivity|].
  unfold Fmap. rewrite Hv. specialize (Hf Hv).
  rewrite (Just_not_Ptr A _ Hk) in Hf. injection Hf as <-.
  destruct m as [x b]. simpl in Hv. subst b. reflexivity.
Qed.

Lemma Fmap_right_identity_witness :
  ({| value := VInt 5; valid := true |} = Nothing TInt
   \/ (valid {| value := VInt 5; valid := true |} = true
       /\ kind (value {| value := VInt 5; valid := true |}) <> reflect.Ptr))
  /\ (valid {| value := VInt 5; valid := true |} = true ->
      Just TInt (value {| value := VInt 5; valid := true |})
      = Ok ((fun x => {| value := x; valid := true |})
              (value {| value := VInt 5; valid := true |})))
  /\ Fmap TInt (fun x => {| value := x; valid := true |})
       {| value := VInt 5; valid := true |}
     = {| value := VInt 5; valid := true |}.
Proof.
  assert (H1 : {| value := VInt 5; valid := true |} = Nothing TInt
               \/ (valid {| value := VInt 5; valid := true |} = true
                   /\ kind (value {| value := VInt 5; valid := true |})
                      <> reflect.Ptr)).
  { right. split; [reflexivity|]. simpl. discriminate. }
  assert (H2 : valid {| value := VInt 5; valid := true |} = true ->
               Just TInt (value {| value := VInt 5; valid := true |})
               = Ok ((fun x => {| value := x; valid := true |})
                       (value {| value := VInt 5; valid := true |}))).
  { intros _. reflexivity. }
  split; [exact H1|]. split; [exact H2|].
  exact (Fmap_right_identity TInt (fun x => {| value := x; valid := true |})
           {| value := VInt 5; valid := true |} H1 H2).
Defined.

(** X11: [Fmap] is associative, for every container and all functions:
    no pointer inspection happens in [Fmap]. *)
Theorem Fmap_assoc (B C : gotype) (f g : govalue -> Maybe) (m : Maybe) :
  Fmap C g (Fmap B f m) = Fmap C (fun x => Fmap C g (f x)) m.
Proof.
  unfold Fmap. destruct (valid m); reflexivity.
Qed.

(** X12: [Map(f)] is [Fmap] of [Just] after [f], as long as [Just] returns
    on the results of [f]. *)
Theorem Map_is_Fmap_of_Just (B : gotype) (f : govalue -> govalue)
  (h : govalue -> Maybe) (m : Maybe) :
  (forall x, Just B (f x) = Ok (h x)) ->
  Map B f m = Ok (Fmap B h m).
Proof.
  intros H. unfold Map, Fmap. destruct (valid m); [apply H|reflexivity].
Qed.

Lemma Map_is_Fmap_of_Just_witness :
  (forall x : govalue,
      Just TBool ((fun _ : govalue => VBool true) x)
      = Ok ((fun _ : govalue => {| value := VBool true; valid := true |}) x))
  /\ Map TBool (fun _ => VBool true) {| value := VInt 5; valid := true |}
     = Ok (Fmap TBool (fun _ => {| value := VBool true; valid := true |})
             {| value := VInt 5; valid := true |}).
Proof.
  assert (H : forall x : govalue,
             Just TBool ((fun _ : govalue => VBool true) x)
             = Ok ((fun _ : govalue =>
                      {| value := VBool true; valid := true |}) x)).
  { intros x. reflexivity. }
  split; [exact H|].
  exact (Map_is_Fmap_of_Just TBool (fun _ => VBool true)
           (fun _ => {| value := VBool true; valid := true |})
           {| value := VInt 5; valid := true |} H).
Defined.

(** X13: [Map] makes a present container absent when [f] returns a nil
    pointer on its value. *)
Theorem Map_nil_pointer_is_Nothing (B : gotype) (f : govalue -> govalue)
  (m : Maybe) :
  nil_pointer (f (value m)) -> Map B f m = Ok (Nothing B).
Proof.
  intros [U HU]. unfold Map. destruct (valid m); [|reflexivity].
  apply Just_nil_Ptr with (e := U). exact HU.
Qed.

Lemma Map_nil_pointer_is_Nothing_witness :
  nil_pointer ((fun _ => VPtr TInt None)
                 (value {| value := VInt 5; valid := true |}))
  /\ Map (TPtr TInt) (fun _ => VPtr TInt None)
       {| value := VInt 5; valid := true |}
     = Ok (Nothing (TPtr TInt)).
Proof.
  assert (H : nil_pointer ((fun _ => VPtr TInt None)
                             (value {| value := VInt 5; valid := true |}))).
  { exists TInt. reflexivity. }
  split; [exact H|].
  exact (Map_nil_pointer_is_Nothing (TPtr TInt) (fun _ => VPtr TInt None)
           {| value := VInt 5; valid := true |} H).
Defined.

(** ** The JSON methods *)

Lemma roundtrip_non_pointer_witness :
  kind (VInt 5) <> reflect.Ptr
  /\ json_Marshal (JSON := MiniJSON.json) TInt (Some (VInt 5))
     = ([x35], None)
  /\ json_Unmarshal (JSON := MiniJSON.json) TInt [x35]
     = (Some (VInt 5), None)
  /\ exists m, Just TInt (VInt 5) = Ok m
               /\ MarshalJSON (J := MiniJSON.json) TInt m = ([x35], None)
               /\ UnmarshalJSON (J := MiniJSON.json) TInt (Nothing TInt)
                    [x35] = Ok (m, None).
Proof.
  split; [simpl; discriminate|]. split; [reflexivity|].
  split; [reflexivity|].
  apply (roundtrip_non_pointer (J := MiniJSON.json) TInt (VInt 5) [x35]).
  - simpl. discriminate.
  - reflexivity.
  - reflexivity.
Defined.

Lemma roundtrip_Nothing_witness :
  json_Marshal (JSON := MiniJSON.json) TInt None = (null_literal, None)
  /\ json_Unmarshal (JSON := MiniJSON.json) TInt null_literal = (None, None)
  /\ MarshalJSON (J := MiniJSON.json) TInt (Nothing TInt)
     = (null_literal, None)
  /\ UnmarshalJSON (J := MiniJSON.json) TInt (Nothing TInt) null_literal
     = Ok (Nothing TInt, None).
Proof.
  split; [reflexivity|]. split; [reflexivity|].
  apply (roundtrip_Nothing (J := MiniJSON.json) TInt null_literal);
    reflexivity.
Defined.

Lemma roundtrip_nil_pointer_witness :
  json_Marshal (JSON := MiniJSON.json) (TPtr TInt) None
  = (null_literal, None)
  /\ json_Unmarshal (JSON := MiniJSON.json) (TPtr TInt) null_literal
     = (None, None)
  /\ exists m, Just (TPtr TInt) (VPtr TInt None) = Ok m
               /\ MarshalJSON (J := MiniJSON.json) (TPtr TInt) m
                  = (null_literal, None)
               /\ UnmarshalJSON (J := MiniJSON.json) (TPtr TInt)
                    (Nothing (TPtr TInt)) null_literal
                  = Ok (Nothing (TPtr TInt), None).
Proof.
  split; [reflexivity|]. split; [reflexivity|].
  apply (roundtrip_nil_pointer (J := MiniJSON.json) TInt null_literal);
    reflexivity.
Defined.

Section MoreDecoding.

Context {J : JSON}.

(** X17: a successful decode of a value not of pointer kind overwrites
    the receiver, whatever it held: the result is present with the
    decoded value. *)
Theorem UnmarshalJSON_overwrites (T : gotype) (m : Maybe) (data : list byte)
  (x : govalue) :
  json_Unmarshal T data = (Some x, None) ->
  kind x <> reflect.Ptr ->
  UnmarshalJSON T m data = Ok ({| value := x; valid := true |}, None).
Proof.
  intros H Hk. rewrite (UnmarshalJSON_value T m data x H).
  rewrite (Just_not_Ptr T x Hk). reflexivity.
Qed.

(** X18: decoding is idempotent: decoding the same input once more into
    the receiver it has produced changes nothing. *)
Theorem UnmarshalJSON_idempotent (T : gotype) (m m1 : Maybe)
  (data : list byte) (e : option json_error) :
  UnmarshalJSON T m data = Ok (m1, e) ->
  UnmarshalJSON T m1 data = Ok (m1, e).
Proof.
  unfold UnmarshalJSON.
  destruct (json_Unmarshal T data) as [t [err|]].
  - intros H. injection H as <- <-. reflexivity.
  - destruct t as [x|].
    + intros H. exact H.
    + intros H. injection H as <- <-. reflexivity.
Qed.

(** X19: at a pointer element type [*U] with [U] concrete, a decode on
    which the library stores a pointer that is not nil stops in the panic
    of [Just]; the receiver cannot become present. *)
Theorem UnmarshalJSON_pointer_type_panics (U : gotype) (m : Maybe)
  (data : list byte) (y : govalue) :
  U <> TAny -> typeof y = U ->
  json_Unmarshal (TPtr U) data = (Some (VPtr U (Some y)), None) ->
  UnmarshalJSON (TPtr U) m data
  = Panic (InterfaceConversion (Some U) (TPtr U)).
Proof.
  intros HU Hy H. rewrite (UnmarshalJSON_value (TPtr U) m data _ H).
  rewrite (Just_pointer_type_panics U y HU Hy). reflexivity.
Qed.

(** X20: a present container whose value the library encodes as
    something it decodes to a nil pointer, as it does for the nil
    interface, does not survive the round trip: decoded into a fresh
    container it is [Nothing]. *)
Theorem roundtrip_null_encoding_loses_presence (T : gotype) (v : govalue)
  (data : list byte) :
  kind v <> reflect.Ptr ->
  json_Marshal T (Some v) = (data, None) ->
  json_Unmarshal T data = (None, None) ->
  exists m, Just T v = Ok m
            /\ HasValue m = true
            /\ MarshalJSON T m = (data, None)
            /\ UnmarshalJSON T (Nothing T) data = Ok (Nothing T, None).
Proof.
  intros Hk He Hd. exists {| value := v; valid := true |}.
  split; [apply Just_not_Ptr; exact Hk|]. split; [reflexivity|]. split.
  - unfold MarshalJSON. simpl. exact He.
  - apply UnmarshalJSON_nil. exact Hd.
Qed.

(** X21: what [MarshalJSON] hands to the library after [Just]: a pointer
    to [v] for a value not of pointer kind, the nil pointer for a nil
    pointer. *)
Theorem MarshalJSON_after_Just (T : gotype) (v : govalue) (m : Maybe) :
  Just T v = Ok m ->
  (kind v <> reflect.Ptr -> MarshalJSON T m = json_Marshal T (Some v))
  /\ (nil_pointer v -> MarshalJSON T m = json_Marshal T None).
Proof.
  intros H. split.
  - intros Hk. rewrite (Just_not_Ptr T v Hk) in H.
    injection H as <-. reflexivity.
  - intros [U HU]. rewrite (Just_nil_Ptr T U v HU) in H.
    injection H as <-. reflexivity.
Qed.


(** X23: decoding keeps the element type: when the receiver holds a
    value of type [T] and the library stores values of type [T], the
    receiver holds a value of type [T] afterwards. *)
Theorem UnmarshalJSON_preserves_type (T : gotype) (m m' : Maybe)
  (data : list byte) (e : option json_error) :
  has_type (value m) T = true ->
  (forall x, json_Unmarshal T data = (Some x, None) ->
             has_type x T = true) ->
  UnmarshalJSON T m data = Ok (m', e) ->
  has_type (value m') T = true.
Proof.
  intros Hm Hx. unfold UnmarshalJSON.
  destruct (json_Unmarshal T data) as [t [err|]].
  - intros H. injection H as <- _. exact Hm.
  - destruct t as [x|].
    + destruct (Just T x) as [r|p] eqn:Ej; simpl; [|discriminate].
      intros H. injection H as <- _.
      exact (Just_well_typed T x r (Hx x eq_refl) Ej).
    + intros H. injection H as <- _. exact Hm.
Qed.

End MoreDecoding.

Lemma UnmarshalJSON_overwrites_witness :
  json_Unmarshal (JSON := MiniJSON.json) TInt [x35] = (Some (VInt 5), None)
  /\ kind (VInt 5) <> reflect.Ptr
  /\ UnmarshalJSON (J := MiniJSON.json) TInt
       {| value := VInt 7; valid := true |} [x35]
     = Ok ({| value := VInt 5; valid := true |}, None).
Proof.
  split; [reflexivity|]. split; [simpl; discriminate|].
  apply (UnmarshalJSON_overwrites (J := MiniJSON.json) TInt
           {| value := VInt 7; valid := true |} [x35] (VInt 5)).
  - reflexivity.
  - simpl. discriminate.
Defined.

Lemma UnmarshalJSON_idempotent_witness :
  UnmarshalJSON (J := MiniJSON.json) TInt (Nothing TInt) [x35]
  = Ok ({| value := VInt 5; valid := true |}, None)
  /\ UnmarshalJSON (J := MiniJSON.json) TInt
       {| value := VInt 5; valid := true |} [x35]
     = Ok ({| value := VInt 5; valid := true |}, None).
Proof.
  split.
  - reflexivity.
  - apply (UnmarshalJSON_idempotent (J := MiniJSON.json) TInt (Nothing TInt)
             {| value := VInt 5; valid := true |} [x35] None).
    reflexivity.
Defined.

Lemma UnmarshalJSON_pointer_type_panics_witness :
  TInt <> TAny /\ typeof (VInt 5) = TInt
  /\ json_Unmarshal (JSON := MiniJSON.json) (TPtr TInt) [x35]
     = (Some (VPtr TInt (Some (VInt 5))), None)
  /\ UnmarshalJSON (J := MiniJSON.json) (TPtr TInt) (Nothing (TPtr TInt))
       [x35]
     = Panic (InterfaceConversion (Some TInt) (TPtr TInt)).
Proof.
  split; [discriminate|]. split; [reflexivity|]. split; [reflexivity|].
  apply (UnmarshalJSON_pointer_type_panics (J := MiniJSON.json) TInt
           (Nothing (TPtr TInt)) [x35] (VInt 5)).
  - discriminate.
  - reflexivity.
  - reflexivity.
Defined.

Lemma roundtrip_null_encoding_loses_presence_witness :
  kind (VIface None) <> reflect.Ptr
  /\ json_Marshal (JSON := MiniJSON.json) TAny (Some (VIface None))
     = (null_literal, None)
  /\ json_Unmarshal (JSON := MiniJSON.json) TAny null_literal = (None, None)
  /\ exists m, Just TAny (VIface None) = Ok m
               /\ HasValue m = true
               /\ MarshalJSON (J := MiniJSON.json) TAny m
                  = (null_literal, None)
               /\ UnmarshalJSON (J := MiniJSON.json) TAny (Nothing TAny)
                    null_literal = Ok (Nothing TAny, None).
Proof.
  split; [simpl; discriminate|]. split; [reflexivity|].
  split; [reflexivity|].
  apply (roundtrip_null_encoding_loses_presence (J := MiniJSON.json) TAny
           (VIface None) null_literal).
  - simpl. discriminate.
  - reflexivity.
  - reflexivity.
Defined.

Lemma MarshalJSON_after_Just_witness :
  Just TInt (VInt 42) = Ok {| value := VInt 42; valid := true |}
  /\ (kind (VInt 42) <> reflect.Ptr ->
      MarshalJSON (J := MiniJSON.json) TInt
        {| value := VInt 42; valid := true |}
      = json_Marshal (JSON := MiniJSON.json) TInt (Some (VInt 42)))
  /\ (nil_pointer (VInt 42) ->
      MarshalJSON (J := MiniJSON.json) TInt
        {| value := VInt 42; valid := true |}
      = json_Marshal (JSON := MiniJSON.json) TInt None).
Proof.
  split.
  - reflexivity.
  - apply (MarshalJSON_after_Just (J := MiniJSON.json) TInt (VInt 42)
             {| value := VInt 42; valid := true |}).
    reflexivity.
Defined.


Lemma UnmarshalJSON_preserves_type_witness :
  has_type (value (Nothing TInt)) TInt = true
  /\ (forall x, json_Unmarshal (JSON := MiniJSON.json) TInt [x35]
                = (Some x, None) -> has_type x TInt = true)
  /\ UnmarshalJSON (J := MiniJSON.json) TInt (Nothing TInt) [x35]
     = Ok ({| value := VInt 5; valid := true |}, None)
  /\ has_type (value {| value := VInt 5; valid := true |}) TInt = true.
Proof.
  assert (H : forall x, json_Unmarshal (JSON := MiniJSON.json) TInt [x35]
                        = (Some x, None) -> has_type x TInt = true).
  { intros x E. cbv in E. injection E as <-. reflexivity. }
  split; [reflexivity|]. split; [exact H|]. split; [reflexivity|].
  apply (UnmarshalJSON_preserves_type (J := MiniJSON.json) TInt
           (Nothing TInt) {| value := VInt 5; valid := true |} [x35] None).
  - reflexivity.
  - exact H.
  - reflexivity.
Defined.
